(** * ns-3 attribute accessors: [src/core/model/attribute-accessor-helper.h]

    A shallow embedding of [AccessorHelper<T,U>], of the local classes built
    by the [DoMakeAccessorHelperOne] / [DoMakeAccessorHelperTwo] overloads and
    of the overload dispatch done by [MakeAccessorHelper], followed by the
    properties of the attribute-binding layer.

    Conventions.
    - A C++ method that mutates [*this] becomes a function returning the new
      state; a [const] method or a [const] parameter returns no new state.
    - [bool GetAccessor (T &tmp) const] becomes a function to [option]:
      [None] is the [false] result, [Some tmp] the [true] result with the
      value left in [tmp].
    - Every call to a collaborator (value container, bound member) is logged,
      so that "is not invoked" is a statement about the log. *)

From Stdlib Require Import List ZArith String.
Import ListNotations.

Set Implicit Arguments.

(** ** Logged effects *)

Inductive Call : Type :=
| CallGetAccessor   (* v->GetAccessor (tmp)              *)
| CallValueSet      (* v->Set (...)                      *)
| CallSetter        (* (object->*m_setter)(tmp)          *)
| CallGetter        (* (object->*m_getter)()             *)
| WriteMember       (* (object->*m_memberVariable) = tmp *)
| ReadMember.       (* object->*m_memberVariable         *)

Definition Call_eqb (c d : Call) : bool :=
  match c, d with
  | CallGetAccessor, CallGetAccessor | CallValueSet, CallValueSet
  | CallSetter, CallSetter | CallGetter, CallGetter
  | WriteMember, WriteMember | ReadMember, ReadMember => true
  | _, _ => false
  end.

(** A computation is its result together with the calls it made, in order. *)
Definition Eff (A : Type) : Type := (A * list Call)%type.

Definition ret {A} (a : A) : Eff A := (a, []).

Definition bind {A B} (m : Eff A) (k : A -> Eff B) : Eff B :=
  (fst (k (fst m)), snd m ++ snd (k (fst m))).

Definition call {A} (c : Call) (a : A) : Eff A := (a, [c]).

Definition result {A} (m : Eff A) : A := fst m.
Definition calls {A} (m : Eff A) : list Call := snd m.

(** [invoked c m]: the computation [m] performed the call [c]. *)
Definition invoked {A} (c : Call) (m : Eff A) : bool :=
  existsb (Call_eqb c) (calls m).

Declare Scope eff_scope.
Delimit Scope eff_scope with eff.
Notation "x <- m ;; k" := (bind m (fun x => k))
  (at level 61, m at next level, right associativity) : eff_scope.
Open Scope eff_scope.

(** ** Narrowing: [dynamic_cast] from a base reference to an exact class

    [dynamic_cast b] is the state of the [Derived] sub-object when the
    dynamic type of [b] is (derived from) [Derived], and [None] when the cast
    yields the null pointer (which is also its result on a null pointer).
    [assign b d] is [b] after the sub-object reached through the narrowed
    pointer has been given the state [d]. *)
Record Narrowing (Base Derived : Type) : Type := {
  dynamic_cast : Base -> option Derived;
  assign : Base -> Derived -> Base;
  cast_assign : forall b d d',
      dynamic_cast b = Some d -> dynamic_cast (assign b d') = Some d';
  assign_same : forall b d,
      dynamic_cast b = Some d -> assign b d = b
}.

(** ** Pointer to data member, [U T::*] *)
Record MemberPtr (T U : Type) : Type := {
  read : T -> U;
  write : T -> U -> T;
  read_write : forall t u, read (write t u) = u
}.

(** ** [class AccessorHelper<T,U>]

    A concrete subclass supplies the four virtual methods; [Set] and [Get]
    are implemented once, in the base class. *)
Section AccessorHelper.
Variables ObjectBase AttributeValue : Type.
Variables T U : Type.
Variable castO : Narrowing ObjectBase T.
Variable castV : Narrowing AttributeValue U.

Record AccessorHelper : Type := {
    DoSet : T -> U -> Eff (bool * T);
    DoGet : T -> U -> Eff (bool * U);
    HasGetter : bool;
    HasSetter : bool
  }.

(** [virtual bool Set (ObjectBase * object, const AttributeValue & val) const] *)
Definition Set_ (a : AccessorHelper) (object : ObjectBase) (val : AttributeValue)
    : Eff (bool * ObjectBase) :=
    match dynamic_cast castV val with
    | None => ret (false, object)
    | Some value =>
        match dynamic_cast castO object with
        | None => ret (false, object)
        | Some obj =>
            r <- DoSet a obj value ;;
            ret (fst r, assign castO object (snd r))
        end
    end.

(** [virtual bool Get (const ObjectBase * object, AttributeValue &val) const] *)
Definition Get (a : AccessorHelper) (object : ObjectBase) (val : AttributeValue)
    : Eff (bool * AttributeValue) :=
    match dynamic_cast castV val with
    | None => ret (false, val)
    | Some value =>
        match dynamic_cast castO object with
        | None => ret (false, val)
        | Some obj =>
            r <- DoGet a obj value ;;
            ret (fst r, assign castV val (snd r))
        end
    end.

(** The pair (container object, value container) after a call: the
      [const] argument is passed through as it was. *)
Definition Set_post (a : AccessorHelper) (object : ObjectBase) (val : AttributeValue)
    : ObjectBase * AttributeValue :=
    (snd (result (Set_ a object val)), val).

Definition Get_post (a : AccessorHelper) (object : ObjectBase) (val : AttributeValue)
    : ObjectBase * AttributeValue :=
    (object, snd (result (Get a object val))).
End AccessorHelper.

Arguments DoSet {T U} _ _ _.
Arguments DoGet {T U} _ _ _.
Arguments HasGetter {T U} _.
Arguments HasSetter {T U} _.

(** ** The local classes of the [DoMakeAccessorHelper...] overloads

    Each section is one function template; its type variables carry the
    names of the template parameters.  [GetAccessor] and [Value_Set] are the
    members [GetAccessor] and [Set] of the value container, at the plain type
    the template uses them at.  The temporary [tmp] has type
    [AccessorTrait<U>::Result], which is [U] without [const] and reference:
    the type variable [U] of a set method stands for that value type. *)

(** [DoMakeAccessorHelperOne (U T::*memberVariable)], class [MemberVariable]. *)
Section OneMemberVariable.
Variables V T U : Type.
Variable GetAccessor : V -> option U.
Variable Value_Set : V -> U -> V.

Definition DoMakeAccessorHelperOne_var (memberVariable : MemberPtr T U)
    : AccessorHelper T V :=
    {| DoSet := fun object v =>
         ok <- call CallGetAccessor (GetAccessor v) ;;
         match ok with
         | None => ret (false, object)
         | Some tmp =>
             object' <- call WriteMember (write memberVariable object tmp) ;;
             ret (true, object')
         end;
       DoGet := fun object v =>
         x <- call ReadMember (read memberVariable object) ;;
         v' <- call CallValueSet (Value_Set v x) ;;
         ret (true, v');
       HasGetter := true;
       HasSetter := true |}.
End OneMemberVariable.

(** [DoMakeAccessorHelperOne (U (T::*getter)(void) const)], class [MemberMethod]. *)
Section OneGetter.
Variables V T U : Type.
Variable Value_Set : V -> U -> V.

Definition DoMakeAccessorHelperOne_get (getter : T -> U) : AccessorHelper T V :=
    {| DoSet := fun object v => ret (false, object);
       DoGet := fun object v =>
         x <- call CallGetter (getter object) ;;
         v' <- call CallValueSet (Value_Set v x) ;;
         ret (true, v');
       HasGetter := true;
       HasSetter := false |}.
End OneGetter.

(** [DoMakeAccessorHelperOne (void (T::*setter)(U))], class [MemberMethod]. *)
Section OneSetter.
Variables V T U : Type.
Variable GetAccessor : V -> option U.

Definition DoMakeAccessorHelperOne_set (setter : T -> U -> T) : AccessorHelper T V :=
    {| DoSet := fun object v =>
         ok <- call CallGetAccessor (GetAccessor v) ;;
         match ok with
         | None => ret (false, object)
         | Some tmp =>
             object' <- call CallSetter (setter object tmp) ;;
             ret (true, object')
         end;
       DoGet := fun object v => ret (false, v);
       HasGetter := false;
       HasSetter := true |}.
End OneSetter.

(** The four [DoMakeAccessorHelperTwo] overloads. *)
Section Two.
Variables W T U V : Type.
Variable GetAccessor : W -> option U.
Variable Value_Set : W -> V -> W.

(** [(void (T::*setter)(U), V (T::*getter)(void) const)] *)
Definition DoMakeAccessorHelperTwo_void_get
             (setter : T -> U -> T) (getter : T -> V) : AccessorHelper T W :=
    {| DoSet := fun object v =>
         ok <- call CallGetAccessor (GetAccessor v) ;;
         match ok with
         | None => ret (false, object)
         | Some tmp =>
             object' <- call CallSetter (setter object tmp) ;;
             ret (true, object')
         end;
       DoGet := fun object v =>
         x <- call CallGetter (getter object) ;;
         v' <- call CallValueSet (Value_Set v x) ;;
         ret (true, v');
       HasGetter := true;
       HasSetter := true |}.

(** [(V (T::*getter)(void) const, void (T::*setter)(U))] *)
Definition DoMakeAccessorHelperTwo_get_void
             (getter : T -> V) (setter : T -> U -> T) : AccessorHelper T W :=
    DoMakeAccessorHelperTwo_void_get setter getter.

(** [(bool (T::*setter)(U), V (T::*getter)(void) const)] *)
Definition DoMakeAccessorHelperTwo_bool_get
             (setter : T -> U -> bool * T) (getter : T -> V) : AccessorHelper T W :=
    {| DoSet := fun object v =>
         ok <- call CallGetAccessor (GetAccessor v) ;;
         match ok with
         | None => ret (false, object)
         | Some tmp =>
             r <- call CallSetter (setter object tmp) ;;
             ret (fst r, snd r)
         end;
       DoGet := fun object v =>
         x <- call CallGetter (getter object) ;;
         v' <- call CallValueSet (Value_Set v x) ;;
         ret (true, v');
       HasGetter := true;
       HasSetter := true |}.

(** [(V (T::*getter)(void) const, bool (T::*setter)(U))] *)
Definition DoMakeAccessorHelperTwo_get_bool
             (getter : T -> V) (setter : T -> U -> bool * T) : AccessorHelper T W :=
    DoMakeAccessorHelperTwo_bool_get setter getter.
End Two.

(** ** Overload dispatch: [MakeAccessorHelper]

    [T1] and [T2] are unconstrained template parameters; what is passed is a
    pointer to member of [T].  [Binding] lists the shapes of the table of
    bindings: a data member, a get functor, and a set method returning [void]
    or [bool].  [V] is the value container; [U] is the plain type of the data
    member or of the set method's argument (after [AccessorTrait]), [G] the
    return type of the get functor. *)
Section Resolver.
Variables T V U G : Type.
Variable GetAccessor : V -> option U.
Variable Value_SetU : V -> U -> V.
Variable Value_SetG : V -> G -> V.

Inductive Binding : Type :=
| DataMember (memberVariable : MemberPtr T U)      (* U T::*memberVariable       *)
| GetFunctor (getter : T -> G)                     (* G (T::*getter)(void) const *)
| SetMethodVoid (setter : T -> U -> T)             (* void (T::*setter)(U)       *)
| SetMethodBool (setter : T -> U -> bool * T).     (* bool (T::*setter)(U)       *)

(** [MakeAccessorHelper<V> (a1)] returns [DoMakeAccessorHelperOne<V> (a1)].
    There are three overloads of [DoMakeAccessorHelperOne].  A [bool (T::*setter)(U)]
    argument matches neither the get-functor nor the [void] set-method
    parameter; it matches [U T::*memberVariable] alone, with a function type deduced for
    the member, and the body of [MemberVariable] is ill-formed at a function
    type (a variable of function type, an assignment to a member function):
    no accessor is built. *)
Definition MakeAccessorHelper1 (a1 : Binding) : option (AccessorHelper T V) :=
  match a1 with
  | DataMember memberVariable =>
      Some (DoMakeAccessorHelperOne_var GetAccessor Value_SetU memberVariable)
  | GetFunctor getter =>
      Some (DoMakeAccessorHelperOne_get Value_SetG getter)
  | SetMethodVoid setter =>
      Some (DoMakeAccessorHelperOne_set GetAccessor setter)
  | SetMethodBool _ => None
  end.

(** [MakeAccessorHelper<V> (a1, a2)] returns [DoMakeAccessorHelperTwo<V> (a1, a2)];
    the four overloads take a set method and a get functor, in either order.
    Any other pair has no viable overload. *)
Definition MakeAccessorHelper2 (a1 a2 : Binding) : option (AccessorHelper T V) :=
  match a1, a2 with
  | SetMethodVoid setter, GetFunctor getter =>
      Some (DoMakeAccessorHelperTwo_void_get GetAccessor Value_SetG setter getter)
  | GetFunctor getter, SetMethodVoid setter =>
      Some (DoMakeAccessorHelperTwo_get_void GetAccessor Value_SetG getter setter)
  | SetMethodBool setter, GetFunctor getter =>
      Some (DoMakeAccessorHelperTwo_bool_get GetAccessor Value_SetG setter getter)
  | GetFunctor getter, SetMethodBool setter =>
      Some (DoMakeAccessorHelperTwo_get_bool GetAccessor Value_SetG getter setter)
  | _, _ => None
  end.

(** An accessor obtained from [MakeAccessorHelper], with one or two arguments. *)
Definition Produced (acc : AccessorHelper T V) : Prop :=
  (exists a1, MakeAccessorHelper1 a1 = Some acc) \/
  (exists a1 a2, MakeAccessorHelper2 a1 a2 = Some acc).

(** The capability flags the table of bindings gives to one reference:
    data member, both; lone getter, getter only; lone setter, setter only. *)
Definition table_flags1 (a1 : Binding) : bool * bool :=
  match a1 with
  | DataMember _ => (true, true)
  | GetFunctor _ => (true, false)
  | SetMethodVoid _ | SetMethodBool _ => (false, true)
  end.

(** [a1], [a2] are a get functor and a set method, in either order. *)
Definition getter_setter_pair (a1 a2 : Binding) : bool :=
  match a1, a2 with
  | GetFunctor _, SetMethodVoid _ | GetFunctor _, SetMethodBool _
  | SetMethodVoid _, GetFunctor _ | SetMethodBool _, GetFunctor _ => true
  | _, _ => false
  end.
End Resolver.

Arguments GetFunctor {T} U {G} getter.
Arguments SetMethodVoid {T U} G setter.
Arguments SetMethodBool {T U} G setter.
Arguments DataMember {T U} G memberVariable.

(** ** A client of the layer, used to run the model

    A class [Car] with a data member, a get functor and two set methods; an
    unrelated class; an integer value container whose extraction is checked
    against the range of an octet, and a string value container. *)
Module Example.

Record Car : Type := { m_speed : Z; m_trips : Z }.

Inductive ObjectBase : Type :=
| CarObject (c : Car)
| NodeObject (id : Z)
| NullObject.

Inductive AttributeValue : Type :=
| IntegerValue (m_value : Z)
| StringValue (m_value : string).

Definition castCar : Narrowing ObjectBase Car.
Proof.
  refine {| dynamic_cast := fun b => match b with CarObject c => Some c | _ => None end;
            assign := fun b d => match b with CarObject _ => CarObject d | _ => b end |}.
  - intros [c | id | ] d d'; intros H; try discriminate H; reflexivity.
  - intros [c | id | ] d; intros H; try discriminate H.
    injection H as ->; reflexivity.
Defined.

Definition castInteger : Narrowing AttributeValue Z.
Proof.
  refine {| dynamic_cast := fun b => match b with IntegerValue z => Some z | _ => None end;
            assign := fun b d => match b with IntegerValue _ => IntegerValue d | _ => b end |}.
  - intros [z | s] d d'; intros H; try discriminate H; reflexivity.
  - intros [z | s] d; intros H; try discriminate H.
    injection H as ->; reflexivity.
Defined.

(** [IntegerValue::GetAccessor] at an octet, [IntegerValue::Set]. *)
Definition GetAccessor (v : Z) : option Z :=
  if andb (0 <=? v)%Z (v <=? 255)%Z then Some v else None.

Definition Value_Set (v : Z) (x : Z) : Z := x.

(** [&Car::m_speed] *)
Definition speed : MemberPtr Car Z.
Proof.
  refine {| read := m_speed;
            write := fun c u => {| m_speed := u; m_trips := m_trips c |} |}.
  intros t u; reflexivity.
Defined.

(** [Z Car::GetSpeed (void) const] *)
Definition GetSpeed (c : Car) : Z := m_speed c.

(** [void Car::SetSpeed (Z)] *)
Definition SetSpeed (c : Car) (u : Z) : Car :=
  {| m_speed := u; m_trips := m_trips c |}.

(** [bool Car::SetSpeedChecked (Z)]: counts the attempt, then refuses a
    speed above 200. *)
Definition SetSpeedChecked (c : Car) (u : Z) : bool * Car :=
  if (u <=? 200)%Z
  then (true, {| m_speed := u; m_trips := m_trips c + 1 |})
  else (false, {| m_speed := m_speed c; m_trips := m_trips c + 1 |}).

Definition Make1 : Binding Car Z Z -> option (AccessorHelper Car Z) :=
  MakeAccessorHelper1 GetAccessor Value_Set Value_Set.

Definition Make2 : Binding Car Z Z -> Binding Car Z Z -> option (AccessorHelper Car Z) :=
  MakeAccessorHelper2 GetAccessor Value_Set.

Definition aCar : ObjectBase := CarObject {| m_speed := 10; m_trips := 0 |}.

(** The accessors of the client, as the local classes build them. *)
Definition speedField : AccessorHelper Car Z :=
  DoMakeAccessorHelperOne_var GetAccessor Value_Set speed.

Definition speedGetter : AccessorHelper Car Z :=
  DoMakeAccessorHelperOne_get Value_Set GetSpeed.

Definition speedSetter : AccessorHelper Car Z :=
  DoMakeAccessorHelperOne_set GetAccessor SetSpeed.

Definition speedPair : AccessorHelper Car Z :=
  DoMakeAccessorHelperTwo_void_get GetAccessor Value_Set SetSpeed GetSpeed.

Definition speedChecked : AccessorHelper Car Z :=
  DoMakeAccessorHelperTwo_bool_get GetAccessor Value_Set SetSpeedChecked GetSpeed.

Definition ASet : AccessorHelper Car Z -> ObjectBase -> AttributeValue
                  -> Eff (bool * ObjectBase) :=
  Set_ castCar castInteger.

Definition AGet : AccessorHelper Car Z -> ObjectBase -> AttributeValue
                  -> Eff (bool * AttributeValue) :=
  Get castCar castInteger.

End Example.

(** ** Statements shared by the properties *)

(** [RoundTrip]: [Set] on [(object, val)] returns [true], a following [Get]
    on the updated object into [out] returns [true], and the extraction of
    the value left in [out] is [v]. *)
Definition RoundTrip {ObjectBase AttributeValue T V U : Type}
           (castO : Narrowing ObjectBase T) (castV : Narrowing AttributeValue V)
           (GetAccessor : V -> option U)
           (acc : AccessorHelper T V)
           (object : ObjectBase) (val out : AttributeValue) (v : U) : Prop :=
  fst (result (Set_ castO castV acc object val)) = true /\
  fst (result (Get castO castV acc
                   (snd (result (Set_ castO castV acc object val))) out)) = true /\
  exists o',
    dynamic_cast castV
      (snd (result (Get castO castV acc
                        (snd (result (Set_ castO castV acc object val))) out)))
    = Some o' /\
    GetAccessor o' = Some v.

(** [narrows c b]: the [dynamic_cast] of [b] does not yield the null pointer. *)
Definition narrows {Base Derived : Type} (c : Narrowing Base Derived) (b : Base) : bool :=
  match dynamic_cast c b with
  | Some _ => true
  | None => false
  end.

(** [extracts castV GetAccessor val]: [val] narrows to the expected value
    container and the extraction from it succeeds. *)
Definition extracts {AttributeValue V U : Type}
           (castV : Narrowing AttributeValue V) (GetAccessor : V -> option U)
           (val : AttributeValue) : bool :=
  match dynamic_cast castV val with
  | Some value =>
      match GetAccessor value with
      | Some _ => true
      | None => false
      end
  | None => false
  end.

(** The binding is a set method returning [bool]. *)
Definition is_bool_setter {T U G : Type} (a : Binding T U G) : bool :=
  match a with
  | SetMethodBool _ _ => true
  | _ => false
  end.

(** An accessor obtained from [MakeAccessorHelper] without a [bool] set
    method: the set step, if any, is a data member write or a [void] call. *)
Definition ProducedVoid {T V U G : Type}
           (GetAccessor : V -> option U)
           (Value_SetU : V -> U -> V) (Value_SetG : V -> G -> V)
           (acc : AccessorHelper T V) : Prop :=
  (exists a1, MakeAccessorHelper1 GetAccessor Value_SetU Value_SetG a1 = Some acc) \/
  (exists a1 a2,
      MakeAccessorHelper2 GetAccessor Value_SetG a1 a2 = Some acc /\
      is_bool_setter a1 = false /\ is_bool_setter a2 = false).

(** [Copies]: a [Get] from [source] into [out] followed by a [Set] of the
    container so filled on [target] returns [true], and what [observe] sees
    of the narrowed target afterwards is what it sees of the narrowed source. *)
Definition Copies {ObjectBase AttributeValue T V U : Type}
           (castO : Narrowing ObjectBase T) (castV : Narrowing AttributeValue V)
           (acc : AccessorHelper T V) (observe : T -> U)
           (source target : ObjectBase) (out : AttributeValue) : Prop :=
  fst (result (Set_ castO castV acc target
                    (snd (result (Get castO castV acc source out))))) = true /\
  exists src dst',
    dynamic_cast castO source = Some src /\
    dynamic_cast castO
      (snd (result (Set_ castO castV acc target
                         (snd (result (Get castO castV acc source out))))))
    = Some dst' /\
    observe dst' = observe src.

(** * Properties *)

(** ** The base class: what [Set] and [Get] do around [DoSet] and [DoGet] *)
Section AccessorHelperFacts.
Variables ObjectBase AttributeValue T V : Type.
Variable castO : Narrowing ObjectBase T.
Variable castV : Narrowing AttributeValue V.
Variable a : AccessorHelper T V.

Lemma Set_value_mismatch object val :
  dynamic_cast castV val = None ->
  Set_ castO castV a object val = ((false, object), []).
Proof. intros H; unfold Set_; rewrite H; reflexivity. Qed.

Lemma Set_object_mismatch object val :
  dynamic_cast castO object = None ->
  Set_ castO castV a object val = ((false, object), []).
Proof.
  intros H; unfold Set_; rewrite H.
  destruct (dynamic_cast castV val); reflexivity.
Qed.

Lemma Get_value_mismatch object val :
  dynamic_cast castV val = None ->
  Get castO castV a object val = ((false, val), []).
Proof. intros H; unfold Get; rewrite H; reflexivity. Qed.

Lemma Get_object_mismatch object val :
  dynamic_cast castO object = None ->
  Get castO castV a object val = ((false, val), []).
Proof.
  intros H; unfold Get; rewrite H.
  destruct (dynamic_cast castV val); reflexivity.
Qed.

Lemma Set_narrowed object val obj value :
  dynamic_cast castO object = Some obj ->
  dynamic_cast castV val = Some value ->
  Set_ castO castV a object val =
  ((fst (result (DoSet a obj value)),
    assign castO object (snd (result (DoSet a obj value)))),
   calls (DoSet a obj value)).
Proof.
  intros HO HV; unfold Set_; rewrite HV, HO.
  unfold bind, ret, result, calls; cbn [fst snd].
  now rewrite app_nil_r.
Qed.

Lemma Get_narrowed object val obj value :
  dynamic_cast castO object = Some obj ->
  dynamic_cast castV val = Some value ->
  Get castO castV a object val =
  ((fst (result (DoGet a obj value)),
    assign castV val (snd (result (DoGet a obj value)))),
   calls (DoGet a obj value)).
Proof.
  intros HO HV; unfold Get; rewrite HV, HO.
  unfold bind, ret, result, calls; cbn [fst snd].
  now rewrite app_nil_r.
Qed.

(** C2. Whatever the subclass of [AccessorHelper], when the narrowing of
    the object or the narrowing of the value fails, [Set] and [Get] return
    [false], make no call, and leave both the container object and the value
    container as they were. *)
Theorem narrowing_failure_has_no_effect object val :
  dynamic_cast castO object = None \/ dynamic_cast castV val = None ->
  Set_ castO castV a object val = ((false, object), []) /\
  Set_post castO castV a object val = (object, val) /\
  Get castO castV a object val = ((false, val), []) /\
  Get_post castO castV a object val = (object, val).
Proof.
  intros H.
  assert (HS : Set_ castO castV a object val = ((false, object), []))
    by (destruct H; [now apply Set_object_mismatch | now apply Set_value_mismatch]).
  assert (HG : Get castO castV a object val = ((false, val), []))
    by (destruct H; [now apply Get_object_mismatch | now apply Get_value_mismatch]).
  unfold Set_post, Get_post; rewrite HS, HG; repeat split.
Qed.
End AccessorHelperFacts.

(** C2, run: a [Car] accessor applied to an object of an unrelated class. *)
Lemma narrowing_failure_has_no_effect_witness :
  (dynamic_cast Example.castCar (Example.NodeObject 7) = None \/
   dynamic_cast Example.castInteger (Example.IntegerValue 42) = None) /\
  (Set_ Example.castCar Example.castInteger
        (DoMakeAccessorHelperOne_var Example.GetAccessor Example.Value_Set Example.speed)
        (Example.NodeObject 7) (Example.IntegerValue 42)
   = ((false, Example.NodeObject 7), []) /\
   Set_post Example.castCar Example.castInteger
        (DoMakeAccessorHelperOne_var Example.GetAccessor Example.Value_Set Example.speed)
        (Example.NodeObject 7) (Example.IntegerValue 42)
   = (Example.NodeObject 7, Example.IntegerValue 42) /\
   Get Example.castCar Example.castInteger
        (DoMakeAccessorHelperOne_var Example.GetAccessor Example.Value_Set Example.speed)
        (Example.NodeObject 7) (Example.IntegerValue 42)
   = ((false, Example.IntegerValue 42), []) /\
   Get_post Example.castCar Example.castInteger
        (DoMakeAccessorHelperOne_var Example.GetAccessor Example.Value_Set Example.speed)
        (Example.NodeObject 7) (Example.IntegerValue 42)
   = (Example.NodeObject 7, Example.IntegerValue 42)).
Proof.
  split.
  - left; reflexivity.
  - apply narrowing_failure_has_no_effect; left; reflexivity.
Defined.

(** ** The accessors built by [MakeAccessorHelper] *)
Section Bindings.
Variables ObjectBase AttributeValue T V U G : Type.
Variable castO : Narrowing ObjectBase T.
Variable castV : Narrowing AttributeValue V.
Variable GetAccessor : V -> option U.
Variable Value_SetU : V -> U -> V.
Variable Value_SetG : V -> G -> V.

Local Abbreviation Make1 := (@MakeAccessorHelper1 T V U G GetAccessor Value_SetU Value_SetG).
Local Abbreviation Make2 := (@MakeAccessorHelper2 T V U G GetAccessor Value_SetG).
Local Abbreviation ASet := (Set_ castO castV).
Local Abbreviation AGet := (Get castO castV).

(** Every produced accessor is one of the five local classes. *)
Lemma Produced_inv (acc : AccessorHelper T V) :
  Produced GetAccessor Value_SetU Value_SetG acc ->
  (exists m, acc = DoMakeAccessorHelperOne_var GetAccessor Value_SetU m) \/
  (exists g, acc = DoMakeAccessorHelperOne_get Value_SetG g) \/
  (exists s, acc = DoMakeAccessorHelperOne_set GetAccessor s) \/
  (exists s g, acc = DoMakeAccessorHelperTwo_void_get GetAccessor Value_SetG s g) \/
  (exists s g, acc = DoMakeAccessorHelperTwo_bool_get GetAccessor Value_SetG s g).
Proof.
  intros [[a1 H] | [a1 [a2 H]]].
  - destruct a1; cbn in H; inversion H; eauto 6.
  - destruct a1, a2; cbn in H; inversion H;
      unfold DoMakeAccessorHelperTwo_get_void, DoMakeAccessorHelperTwo_get_bool;
      eauto 8.
Qed.

(** [DoSet] of a setter-bearing class when the extraction fails. *)
Lemma DoSet_extraction_fails (acc : AccessorHelper T V) obj value :
  Produced GetAccessor Value_SetU Value_SetG acc ->
  HasSetter acc = true ->
  GetAccessor value = None ->
  DoSet acc obj value = ((false, obj), [CallGetAccessor]).
Proof.
  intros HP HS HN.
  destruct (Produced_inv HP) as [[m ->] | [[g ->] | [[s ->] | [[s [g ->]] | [s [g ->]]]]]];
    cbn in HS |- *; try discriminate HS;
    unfold bind, call, ret; cbn [fst snd]; rewrite HN; reflexivity.
Qed.

(** C3. For an accessor with a setter, when both narrowings succeed and the
    extraction [GetAccessor] fails, [Set] returns [false] and the only call
    made is the extraction: the data member is not written, the set method
    is not invoked, and the container object is as it was. *)
Theorem conversion_failure_leaves_storage
        (acc : AccessorHelper T V) object val obj value :
  Produced GetAccessor Value_SetU Value_SetG acc ->
  HasSetter acc = true ->
  dynamic_cast castO object = Some obj ->
  dynamic_cast castV val = Some value ->
  GetAccessor value = None ->
  ASet acc object val = ((false, object), [CallGetAccessor]) /\
  invoked WriteMember (ASet acc object val) = false /\
  invoked CallSetter (ASet acc object val) = false /\
  Set_post castO castV acc object val = (object, val).
Proof.
  intros HP HS HO HV HN.
  assert (E : ASet acc object val = ((false, object), [CallGetAccessor])).
  { rewrite (@Set_narrowed _ _ _ _ castO castV _ _ _ _ _ HO HV), (@DoSet_extraction_fails acc obj value HP HS HN).
    unfold result, calls; cbn [fst snd].
    now rewrite (@assign_same _ _ castO _ _ HO). }
  unfold Set_post; rewrite E; repeat split.
Qed.

(** C5. The capability flags of a produced accessor are those of the shape
    it was built from: data member, both; lone get functor, getter only;
    lone set method, setter only; get functor and set method, both.  Each of
    these shapes, a lone [bool] set method apart, does produce an accessor.
    The flags are constants of the accessor: no operation returns a new one. *)
Theorem capability_flags_match_shape :
  (forall (a1 : Binding T U G) acc, Make1 a1 = Some acc ->
                  (HasGetter acc, HasSetter acc) = table_flags1 a1) /\
  (forall (a1 a2 : Binding T U G) acc, Make2 a1 a2 = Some acc ->
                     getter_setter_pair a1 a2 = true /\
                     (HasGetter acc, HasSetter acc) = (true, true)) /\
  (forall m, Make1 (DataMember G m) <> None) /\
  (forall g, Make1 (GetFunctor U g) <> None) /\
  (forall s, Make1 (SetMethodVoid G s) <> None) /\
  (forall a1 a2 : Binding T U G, getter_setter_pair a1 a2 = true -> Make2 a1 a2 <> None).
Proof.
  split; [| split; [| split; [| split; [| split]]]].
  - intros a1 acc H; destruct a1; cbn in H; inversion H; reflexivity.
  - intros a1 a2 acc H; destruct a1, a2; cbn in H; inversion H; split; reflexivity.
  - discriminate.
  - discriminate.
  - discriminate.
  - intros a1 a2 H; destruct a1, a2; cbn in H |- *; discriminate.
Qed.

(** C6. On an accessor built from a lone get functor, [Set] returns [false]
    on every input and never calls the extraction [GetAccessor]; on an
    accessor built from a lone set method, [Get] returns [false] on every
    input. *)
Theorem absent_capability_returns_false :
  (forall getter acc object val,
      Make1 (GetFunctor U getter) = Some acc ->
      fst (result (ASet acc object val)) = false /\
      invoked CallGetAccessor (ASet acc object val) = false) /\
  (forall setter acc object val,
      Make1 (SetMethodVoid G setter) = Some acc ->
      fst (result (AGet acc object val)) = false).
Proof.
  split.
  - intros getter acc object val H; cbn in H; injection H as <-.
    unfold Set_.
    destruct (dynamic_cast castV val) as [value|];
      [destruct (dynamic_cast castO object) as [obj|] |]; split; reflexivity.
  - intros setter acc object val H; cbn in H; injection H as <-.
    unfold Get.
    destruct (dynamic_cast castV val) as [value|];
      [destruct (dynamic_cast castO object) as [obj|] |]; reflexivity.
Qed.

(** C7. With a [bool] set method and a get functor, in either order, once
    both narrowings and the extraction succeed, [Set] calls the set method
    and returns the boolean it returned; the container object is left in the
    state the set method produced, whether that boolean is [true] or [false]. *)
Theorem bool_setter_result_is_returned
        setter getter (acc : AccessorHelper T V) object val obj value tmp :
  Make2 (SetMethodBool G setter) (GetFunctor U getter) = Some acc \/
  Make2 (GetFunctor U getter) (SetMethodBool G setter) = Some acc ->
  dynamic_cast castO object = Some obj ->
  dynamic_cast castV val = Some value ->
  GetAccessor value = Some tmp ->
  ASet acc object val =
  ((fst (setter obj tmp), assign castO object (snd (setter obj tmp))),
   [CallGetAccessor; CallSetter]).
Proof.
  intros H HO HV HX.
  assert (E : acc = DoMakeAccessorHelperTwo_bool_get GetAccessor Value_SetG setter getter)
    by (destruct H as [H | H]; cbn in H; now injection H as <-).
  subst acc.
  rewrite (@Set_narrowed _ _ _ _ castO castV _ _ _ _ _ HO HV); cbn.
  unfold bind, call, ret, result, calls; cbn [fst snd]; rewrite HX; reflexivity.
Qed.

(** C8. With a [void] set method, alone or with a get functor in either
    order, once both narrowings and the extraction succeed, [Set] calls the
    set method on the extracted value and returns [true]. *)
Theorem void_setter_always_succeeds
        setter (acc : AccessorHelper T V) object val obj value tmp :
  Make1 (SetMethodVoid G setter) = Some acc \/
  (exists getter,
      Make2 (SetMethodVoid G setter) (GetFunctor U getter) = Some acc \/
      Make2 (GetFunctor U getter) (SetMethodVoid G setter) = Some acc) ->
  dynamic_cast castO object = Some obj ->
  dynamic_cast castV val = Some value ->
  GetAccessor value = Some tmp ->
  ASet acc object val =
  ((true, assign castO object (setter obj tmp)), [CallGetAccessor; CallSetter]).
Proof.
  intros H HO HV HX.
  rewrite (@Set_narrowed _ _ _ _ castO castV _ _ _ _ _ HO HV).
  destruct H as [H | [getter [H | H]]]; cbn in H; injection H as <-; cbn;
    unfold bind, call, ret, result, calls; cbn [fst snd]; rewrite HX; reflexivity.
Qed.

(** C9. A get functor and a set method, [void] or [bool], give the same
    accessor in either argument order: both orders resolve, and [Set], [Get],
    [HasGetter] and [HasSetter] of the two results agree on every input. *)
Theorem argument_order_is_irrelevant (a1 a2 : Binding T U G) :
  getter_setter_pair a1 a2 = true ->
  exists acc acc',
    Make2 a1 a2 = Some acc /\ Make2 a2 a1 = Some acc' /\
    acc = acc' /\
    (forall object val, ASet acc object val = ASet acc' object val) /\
    (forall object val, AGet acc object val = AGet acc' object val) /\
    HasGetter acc = HasGetter acc' /\
    HasSetter acc = HasSetter acc'.
Proof.
  intros H; destruct a1, a2; cbn in H; try discriminate H; cbn;
    eexists; eexists; repeat split.
Qed.

(** C10. On an accessor built from a lone set method, [Get] with both
    narrowings succeeding returns [false] without any call, and the value
    container (and the container object) is as it was. *)
Theorem set_only_get_leaves_value_container
        setter (acc : AccessorHelper T V) object val obj value :
  Make1 (SetMethodVoid G setter) = Some acc ->
  dynamic_cast castO object = Some obj ->
  dynamic_cast castV val = Some value ->
  AGet acc object val = ((false, val), []) /\
  invoked CallValueSet (AGet acc object val) = false /\
  Get_post castO castV acc object val = (object, val).
Proof.
  intros H HO HV; cbn in H; injection H as <-.
  assert (E : AGet (DoMakeAccessorHelperOne_set GetAccessor setter) object val
              = ((false, val), [])).
  { rewrite (@Get_narrowed _ _ _ _ castO castV _ _ _ _ _ HO HV); cbn.
    now rewrite (@assign_same _ _ castV _ _ HV). }
  unfold Get_post; rewrite E; repeat split.
Qed.
End Bindings.

(** Runs [Set], [Get] and the local classes once the casts are known. *)
Ltac run_accessor :=
  cbv beta iota zeta delta
      [Set_ Get Set_post Get_post bind call ret result calls invoked
       DoSet DoGet HasGetter HasSetter
       DoMakeAccessorHelperOne_var DoMakeAccessorHelperOne_get
       DoMakeAccessorHelperOne_set DoMakeAccessorHelperTwo_void_get
       DoMakeAccessorHelperTwo_get_void DoMakeAccessorHelperTwo_bool_get
       DoMakeAccessorHelperTwo_get_bool
       narrows extracts fst snd app existsb Call_eqb orb andb].

(** ** Round trip: the get functor returns the type the set method takes *)
Section SetThenGet.
Variables ObjectBase AttributeValue T V U : Type.
Variable castO : Narrowing ObjectBase T.
Variable castV : Narrowing AttributeValue V.
Variable GetAccessor : V -> option U.
Variable Value_Set : V -> U -> V.

Local Abbreviation Make1 := (@MakeAccessorHelper1 T V U U GetAccessor Value_Set Value_Set).
Local Abbreviation Make2 := (@MakeAccessorHelper2 T V U U GetAccessor Value_Set).

(** A round trip of [Set] and [Get] follows from one of [DoSet] and [DoGet]
    on the narrowed object and containers. *)
Lemma RoundTrip_of_Do (acc : AccessorHelper T V) object val out obj value o v :
  dynamic_cast castO object = Some obj ->
  dynamic_cast castV val = Some value ->
  dynamic_cast castV out = Some o ->
  fst (result (DoSet acc obj value)) = true ->
  fst (result (DoGet acc (snd (result (DoSet acc obj value))) o)) = true ->
  GetAccessor (snd (result (DoGet acc (snd (result (DoSet acc obj value))) o)))
  = Some v ->
  RoundTrip castO castV GetAccessor acc object val out v.
Proof.
  intros HO HV HOut Hok Hg Hx.
  pose proof (@Set_narrowed _ _ _ _ castO castV acc _ _ _ _ HO HV) as ES.
  pose proof (@cast_assign _ _ castO _ _ (snd (result (DoSet acc obj value))) HO) as HO'.
  pose proof (@Get_narrowed _ _ _ _ castO castV acc _ _ _ _ HO' HOut) as EG.
  unfold RoundTrip, result, calls in *.
  rewrite ES; cbn [fst snd]; rewrite EG; cbn [fst snd].
  split; [exact Hok |]; split; [exact Hg |].
  eexists; split; [eapply cast_assign; exact HOut | exact Hx].
Qed.

(** C4. Let [object] be of the expected class, let [val] hold [v] (it
    narrows and its extraction yields [v]), let [out] be a value container of
    the expected type, and let storing [v] and then extracting give [v] back.
    For an accessor built from a data member, and for one built from a
    [void] set method and a get functor that reads what the set method
    installed, [Set (object, val)] returns [true], the following [Get] into
    [out] returns [true], and the extraction of [out] is then [v].  The same
    holds with a [bool] set method that accepts [v] on the object. *)
Theorem set_then_get_round_trip object val out obj value o v :
  dynamic_cast castO object = Some obj ->
  dynamic_cast castV val = Some value ->
  GetAccessor value = Some v ->
  dynamic_cast castV out = Some o ->
  (forall w, GetAccessor (Value_Set w v) = Some v) ->
  (forall m acc,
      Make1 (DataMember U m) = Some acc ->
      RoundTrip castO castV GetAccessor acc object val out v) /\
  (forall setter getter acc,
      (forall t, getter (setter t v) = v) ->
      Make2 (SetMethodVoid U setter) (GetFunctor U getter) = Some acc \/
      Make2 (GetFunctor U getter) (SetMethodVoid U setter) = Some acc ->
      RoundTrip castO castV GetAccessor acc object val out v) /\
  (forall setter getter acc,
      fst (setter obj v) = true ->
      (forall t, fst (setter t v) = true -> getter (snd (setter t v)) = v) ->
      Make2 (SetMethodBool U setter) (GetFunctor U getter) = Some acc \/
      Make2 (GetFunctor U getter) (SetMethodBool U setter) = Some acc ->
      RoundTrip castO castV GetAccessor acc object val out v).
Proof.
  intros HO HV HX HOut Hinv; split; [| split].
  - intros m acc H; cbn in H; injection H as <-.
    apply RoundTrip_of_Do with (obj := obj) (value := value) (o := o);
      try assumption; run_accessor; rewrite ?HX; run_accessor;
      try reflexivity.
    rewrite read_write; apply Hinv.
  - intros setter getter acc Hsame H.
    assert (E : acc = DoMakeAccessorHelperTwo_void_get GetAccessor Value_Set setter getter)
      by (destruct H as [H | H]; cbn in H; now injection H as <-).
    subst acc.
    apply RoundTrip_of_Do with (obj := obj) (value := value) (o := o);
      try assumption; run_accessor; rewrite ?HX; run_accessor;
      try reflexivity.
    rewrite Hsame; apply Hinv.
  - intros setter getter acc Hacc Hsame H.
    assert (E : acc = DoMakeAccessorHelperTwo_bool_get GetAccessor Value_Set setter getter)
      by (destruct H as [H | H]; cbn in H; now injection H as <-).
    subst acc.
    apply RoundTrip_of_Do with (obj := obj) (value := value) (o := o);
      try assumption; cbn;
      unfold bind, call, ret, result; cbn [fst snd]; rewrite ?HX; cbn [fst snd];
      try reflexivity; try exact Hacc.
    rewrite (Hsame _ Hacc); apply Hinv.
Qed.
End SetThenGet.

(** ** Further properties of the built accessors *)

Section Outcomes.
Variables ObjectBase AttributeValue T V U G : Type.
Variable castO : Narrowing ObjectBase T.
Variable castV : Narrowing AttributeValue V.
Variable GetAccessor : V -> option U.
Variable Value_SetU : V -> U -> V.
Variable Value_SetG : V -> G -> V.

Local Abbreviation Build1 := (@MakeAccessorHelper1 T V U G GetAccessor Value_SetU Value_SetG).
Local Abbreviation Build2 := (@MakeAccessorHelper2 T V U G GetAccessor Value_SetG).
Local Abbreviation SetOn := (Set_ castO castV).
Local Abbreviation GetOn := (Get castO castV).

(** Without a [bool] set method, the accessor is one of four local classes. *)
Lemma ProducedVoid_inv (acc : AccessorHelper T V) :
  ProducedVoid GetAccessor Value_SetU Value_SetG acc ->
  (exists m, acc = DoMakeAccessorHelperOne_var GetAccessor Value_SetU m) \/
  (exists g, acc = DoMakeAccessorHelperOne_get Value_SetG g) \/
  (exists s, acc = DoMakeAccessorHelperOne_set GetAccessor s) \/
  (exists s g, acc = DoMakeAccessorHelperTwo_void_get GetAccessor Value_SetG s g).
Proof.
  intros [[a1 H] | [a1 [a2 [H [B1 B2]]]]].
  - destruct a1; cbn in H; inversion H; eauto 6.
  - destruct a1, a2; cbn in H, B1, B2; try discriminate; inversion H;
      unfold DoMakeAccessorHelperTwo_get_void; eauto 8.
Qed.

(** X1. For an accessor built without a [bool] set method, [Set] returns
    [true] exactly when the accessor has a setter, the object narrows, the
    value narrows and the extraction from it succeeds. *)
Theorem set_succeeds_exactly_when (acc : AccessorHelper T V) object val :
  ProducedVoid GetAccessor Value_SetU Value_SetG acc ->
  fst (result (SetOn acc object val))
  = andb (HasSetter acc)
         (andb (narrows castO object) (extracts castV GetAccessor val)).
Proof.
  intros HP.
  destruct (ProducedVoid_inv HP) as [[m ->] | [[g ->] | [[s ->] | [s [g ->]]]]];
    unfold Set_, narrows, extracts;
    destruct (dynamic_cast castV val) as [value |];
    destruct (dynamic_cast castO object) as [obj |];
    run_accessor; try reflexivity;
    destruct (GetAccessor value); reflexivity.
Qed.

(** X2. For an accessor built without a [bool] set method, a [Set] that
    returns [false] has left the container object as it was and has neither
    written the data member nor called the set method. *)
Theorem failed_set_leaves_object (acc : AccessorHelper T V) object val :
  ProducedVoid GetAccessor Value_SetU Value_SetG acc ->
  fst (result (SetOn acc object val)) = false ->
  snd (result (SetOn acc object val)) = object /\
  invoked WriteMember (SetOn acc object val) = false /\
  invoked CallSetter (SetOn acc object val) = false.
Proof.
  intros HP.
  destruct (ProducedVoid_inv HP) as [[m ->] | [[g ->] | [[s ->] | [s [g ->]]]]];
    unfold Set_;
    destruct (dynamic_cast castV val) as [value |];
    destruct (dynamic_cast castO object) as [obj |] eqn:HO;
    run_accessor; try (intros _; repeat split; fail);
    try (intros _; rewrite (@assign_same _ _ castO _ _ HO); repeat split; fail);
    destruct (GetAccessor value); run_accessor;
    try discriminate;
    intros _; rewrite (@assign_same _ _ castO _ _ HO); repeat split.
Qed.

(** X3. For every produced accessor, [Get] returns [true] exactly when the
    accessor has a getter and both the value and the object narrow; a [Get]
    that returns [false] has made no call and has left the value container
    as it was. *)
Theorem get_succeeds_exactly_when (acc : AccessorHelper T V) object val :
  Produced GetAccessor Value_SetU Value_SetG acc ->
  fst (result (GetOn acc object val))
  = andb (HasGetter acc) (andb (narrows castV val) (narrows castO object)) /\
  (fst (result (GetOn acc object val)) = false ->
   GetOn acc object val = ((false, val), [])).
Proof.
  intros HP.
  destruct (Produced_inv HP) as [[m ->] | [[g ->] | [[s ->] | [[s [g ->]] | [s [g ->]]]]]];
    unfold Get, narrows;
    destruct (dynamic_cast castV val) as [value |] eqn:HV;
    destruct (dynamic_cast castO object) as [obj |];
    run_accessor; split; try reflexivity; try discriminate;
    intros _; now rewrite (@assign_same _ _ castV _ _ HV).
Qed.

(** X4. For every produced accessor and every input, [Set] never reads the
    bound storage nor stores into the value container, and [Get] never
    extracts from the value container nor writes the bound storage. *)
Theorem set_reads_nothing_get_writes_nothing (acc : AccessorHelper T V) object val :
  Produced GetAccessor Value_SetU Value_SetG acc ->
  (invoked CallGetter (SetOn acc object val) = false /\
   invoked ReadMember (SetOn acc object val) = false /\
   invoked CallValueSet (SetOn acc object val) = false) /\
  (invoked CallGetAccessor (GetOn acc object val) = false /\
   invoked CallSetter (GetOn acc object val) = false /\
   invoked WriteMember (GetOn acc object val) = false).
Proof.
  intros HP.
  destruct (Produced_inv HP) as [[m ->] | [[g ->] | [[s ->] | [[s [g ->]] | [s [g ->]]]]]];
    unfold Set_, Get;
    destruct (dynamic_cast castV val) as [value |];
    destruct (dynamic_cast castO object) as [obj |];
    run_accessor; try (repeat split; fail);
    destruct (GetAccessor value); repeat split.
Qed.

(** X5. An accessor built from a data member: once both narrowings succeed,
    a successful extraction makes [Set] assign the extracted value to the
    member and return [true], after which the member of the narrowed object
    holds that value; [Get] stores the member's value into the container and
    returns [true]. *)
Theorem data_member_is_written_and_read
        m (acc : AccessorHelper T V) object val obj value :
  Build1 (DataMember G m) = Some acc ->
  dynamic_cast castO object = Some obj ->
  dynamic_cast castV val = Some value ->
  (forall tmp,
      GetAccessor value = Some tmp ->
      SetOn acc object val
      = ((true, assign castO object (write m obj tmp)), [CallGetAccessor; WriteMember]) /\
      exists obj',
        dynamic_cast castO (snd (result (SetOn acc object val))) = Some obj' /\
        read m obj' = tmp) /\
  GetOn acc object val
  = ((true, assign castV val (Value_SetU value (read m obj))),
     [ReadMember; CallValueSet]).
Proof.
  intros H HO HV; cbn in H; injection H as <-; split.
  - intros tmp HX.
    assert (E : SetOn (DoMakeAccessorHelperOne_var GetAccessor Value_SetU m) object val
                = ((true, assign castO object (write m obj tmp)),
                   [CallGetAccessor; WriteMember]))
      by (unfold Set_; rewrite HV, HO; run_accessor; rewrite HX; reflexivity).
    split; [exact E |].
    rewrite E; exists (write m obj tmp); split.
    + exact (@cast_assign _ _ castO _ _ (write m obj tmp) HO).
    + apply read_write.
  - unfold Get; rewrite HV, HO; reflexivity.
Qed.

(** X6. An accessor built with a get functor, alone or beside a set method
    in either order: once both narrowings succeed, [Get] calls the get
    functor, stores what it returned into the container and returns [true]. *)
Theorem get_functor_is_read
        getter (acc : AccessorHelper T V) object val obj value :
  Build1 (GetFunctor U getter) = Some acc \/
  (exists a2, Build2 (GetFunctor U getter) a2 = Some acc \/
              Build2 a2 (GetFunctor U getter) = Some acc) ->
  dynamic_cast castO object = Some obj ->
  dynamic_cast castV val = Some value ->
  GetOn acc object val
  = ((true, assign castV val (Value_SetG value (getter obj))),
     [CallGetter; CallValueSet]).
Proof.
  intros H HO HV.
  destruct H as [H | [a2 [H | H]]]; [| destruct a2 ..]; cbn in H;
    try discriminate H; injection H as <-;
    unfold Get; rewrite HV, HO; reflexivity.
Qed.

(** X7. An accessor built from a [void] set method and a get functor sets
    as the accessor of the lone set method does and gets as the accessor of
    the lone get functor does; with a [bool] set method it still gets as the
    lone get functor does. *)
Theorem pair_sets_and_gets_as_its_halves setter bsetter getter pair bpair lone_set lone_get :
  Build2 (SetMethodVoid G setter) (GetFunctor U getter) = Some pair ->
  Build2 (SetMethodBool G bsetter) (GetFunctor U getter) = Some bpair ->
  Build1 (SetMethodVoid G setter) = Some lone_set ->
  Build1 (GetFunctor U getter) = Some lone_get ->
  forall object val,
    Set_ castO castV pair object val = Set_ castO castV lone_set object val /\
    Get castO castV pair object val = Get castO castV lone_get object val /\
    Get castO castV bpair object val = Get castO castV lone_get object val.
Proof.
  intros H1 H2 H3 H4 object val; cbn in H1, H2, H3, H4.
  injection H1 as <-; injection H2 as <-; injection H3 as <-; injection H4 as <-.
  repeat split.
Qed.
End Outcomes.

(** ** Copying an attribute from one object to another *)
Section GetThenSet.
Variables ObjectBase AttributeValue T V U : Type.
Variable castO : Narrowing ObjectBase T.
Variable castV : Narrowing AttributeValue V.
Variable GetAccessor : V -> option U.
Variable Value_Set : V -> U -> V.

Local Abbreviation Build1 := (@MakeAccessorHelper1 T V U U GetAccessor Value_Set Value_Set).
Local Abbreviation Build2 := (@MakeAccessorHelper2 T V U U GetAccessor Value_Set).

(** [Copies] follows from [DoGet] then [DoSet] on the narrowed arguments. *)
Lemma Copies_of_Do (acc : AccessorHelper T V) (observe : T -> U)
      source target out src dst o :
  dynamic_cast castO source = Some src ->
  dynamic_cast castO target = Some dst ->
  dynamic_cast castV out = Some o ->
  fst (result (DoSet acc dst (snd (result (DoGet acc src o))))) = true ->
  observe (snd (result (DoSet acc dst (snd (result (DoGet acc src o))))))
  = observe src ->
  Copies castO castV acc observe source target out.
Proof.
  intros HS HT HOut Hok Hobs.
  pose proof (@Get_narrowed _ _ _ _ castO castV acc _ _ _ _ HS HOut) as EG.
  pose proof (@cast_assign _ _ castV _ _ (snd (result (DoGet acc src o))) HOut) as HOut'.
  pose proof (@Set_narrowed _ _ _ _ castO castV acc _ _ _ _ HT HOut') as ES.
  unfold Copies, result, calls in *.
  rewrite EG; cbn [fst snd]; rewrite ES; cbn [fst snd].
  split; [exact Hok |].
  exists src; eexists; split; [exact HS |].
  split; [eapply cast_assign; exact HT | exact Hobs].
Qed.

(** X8. Let [source] and [target] be objects of the expected class and [out]
    a container of the expected type.  With an accessor built from a data
    member, or from a [void] set method and a get functor that reads what
    the set method installed, and when the value read from [source] is
    extracted unchanged from a container it was stored in, [Get] from
    [source] followed by [Set] on [target] returns [true] and gives [target]
    the attribute value of [source]. *)
Theorem get_then_set_copies_attribute source target out src dst o :
  dynamic_cast castO source = Some src ->
  dynamic_cast castO target = Some dst ->
  dynamic_cast castV out = Some o ->
  (forall m acc,
      (forall w, GetAccessor (Value_Set w (read m src)) = Some (read m src)) ->
      Build1 (DataMember U m) = Some acc ->
      Copies castO castV acc (read m) source target out) /\
  (forall setter getter acc,
      (forall w, GetAccessor (Value_Set w (getter src)) = Some (getter src)) ->
      (forall t, getter (setter t (getter src)) = getter src) ->
      Build2 (SetMethodVoid U setter) (GetFunctor U getter) = Some acc \/
      Build2 (GetFunctor U getter) (SetMethodVoid U setter) = Some acc ->
      Copies castO castV acc getter source target out).
Proof.
  intros HS HT HOut; split.
  - intros m acc Hinv H; cbn in H; injection H as <-.
    apply Copies_of_Do with (src := src) (dst := dst) (o := o);
      try assumption; run_accessor; rewrite Hinv; run_accessor;
      [reflexivity | apply read_write].
  - intros setter getter acc Hinv Hsame H.
    assert (E : acc = DoMakeAccessorHelperTwo_void_get GetAccessor Value_Set setter getter)
      by (destruct H as [H | H]; cbn in H; now injection H as <-).
    subst acc.
    apply Copies_of_Do with (src := src) (dst := dst) (o := o);
      try assumption; run_accessor; rewrite Hinv; run_accessor;
      [reflexivity | apply Hsame].
Qed.
End GetThenSet.

(** * The properties run on the client *)

Import Example.

(** The scenario of a field binding: a value in range is installed and read
    back; a string container is refused by the narrowing of the value. *)
Example speed_field_scenario :
  ASet speedField aCar (IntegerValue 42)
  = ((true, CarObject {| m_speed := 42; m_trips := 0 |}), [CallGetAccessor; WriteMember]) /\
  AGet speedField (CarObject {| m_speed := 42; m_trips := 0 |}) (IntegerValue 0)
  = ((true, IntegerValue 42), [ReadMember; CallValueSet]) /\
  ASet speedField aCar (StringValue "x") = ((false, aCar), []).
Proof. repeat split. Qed.

(** C1, the code at the failing input.  [MakeAccessorHelper] applied to the
    lone set method [bool Car::SetSpeedChecked (Z)] builds no accessor, where
    the claim has a setter-only accessor whose [Set] mirrors the returned
    boolean; the same set method passed with the get functor does build the
    accessor of class [MemberMethod] for a [bool] set method. *)
Theorem lone_bool_setter_builds_no_accessor :
  Make1 (SetMethodBool Z SetSpeedChecked) = None /\
  Make2 (SetMethodBool Z SetSpeedChecked) (GetFunctor Z GetSpeed) = Some speedChecked.
Proof. split; reflexivity. Qed.

(** C3, run: the integer 300 does not fit the octet the field accessor
    extracts. *)
Lemma conversion_failure_leaves_storage_witness :
  (Produced GetAccessor Value_Set Value_Set speedField /\
   HasSetter speedField = true /\
   dynamic_cast castCar aCar = Some {| m_speed := 10; m_trips := 0 |} /\
   dynamic_cast castInteger (IntegerValue 300) = Some 300%Z /\
   GetAccessor 300 = None) /\
  (Set_ castCar castInteger speedField aCar (IntegerValue 300)
   = ((false, aCar), [CallGetAccessor]) /\
   invoked WriteMember (Set_ castCar castInteger speedField aCar (IntegerValue 300)) = false /\
   invoked CallSetter (Set_ castCar castInteger speedField aCar (IntegerValue 300)) = false /\
   Set_post castCar castInteger speedField aCar (IntegerValue 300)
   = (aCar, IntegerValue 300)).
Proof.
  assert (HP : Produced GetAccessor Value_Set Value_Set speedField)
    by (left; exists (DataMember Z speed); reflexivity).
  split.
  - repeat split; [exact HP].
  - apply (@conversion_failure_leaves_storage _ _ _ _ _ _ castCar castInteger
             GetAccessor Value_Set Value_Set speedField aCar (IntegerValue 300)
             {| m_speed := 10; m_trips := 0 |} 300%Z HP);
      reflexivity.
Defined.

(** C4, run: 42 is installed in [aCar] and read back into another container,
    through the data member, through the [void] pair and through the [bool]
    pair, whose set method accepts 42. *)
Lemma set_then_get_round_trip_witness :
  (dynamic_cast castCar aCar = Some {| m_speed := 10; m_trips := 0 |} /\
   dynamic_cast castInteger (IntegerValue 42) = Some 42%Z /\
   GetAccessor 42 = Some 42%Z /\
   dynamic_cast castInteger (IntegerValue 0) = Some 0%Z /\
   (forall w, GetAccessor (Value_Set w 42) = Some 42%Z) /\
   fst (SetSpeedChecked {| m_speed := 10; m_trips := 0 |} 42) = true) /\
  RoundTrip castCar castInteger GetAccessor speedField
            aCar (IntegerValue 42) (IntegerValue 0) 42%Z /\
  RoundTrip castCar castInteger GetAccessor speedPair
            aCar (IntegerValue 42) (IntegerValue 0) 42%Z /\
  RoundTrip castCar castInteger GetAccessor speedChecked
            aCar (IntegerValue 42) (IntegerValue 0) 42%Z.
Proof.
  split; [repeat split |].
  destruct (@set_then_get_round_trip _ _ _ _ _ castCar castInteger
              GetAccessor Value_Set aCar (IntegerValue 42) (IntegerValue 0)
              {| m_speed := 10; m_trips := 0 |} 42%Z 0%Z 42%Z
              eq_refl eq_refl eq_refl eq_refl (fun w => eq_refl))
    as [HF [HV HB]].
  split; [| split].
  - apply (HF speed); reflexivity.
  - apply (HV SetSpeed GetSpeed); [reflexivity | left; reflexivity].
  - apply (HB SetSpeedChecked GetSpeed);
      [reflexivity | reflexivity | left; reflexivity].
Defined.

(** C5, run: the flags of the five accessors of the client. *)
Lemma capability_flags_match_shape_witness :
  (HasGetter speedField, HasSetter speedField) = (true, true) /\
  (HasGetter speedGetter, HasSetter speedGetter) = (true, false) /\
  (HasGetter speedSetter, HasSetter speedSetter) = (false, true) /\
  (HasGetter speedPair, HasSetter speedPair) = (true, true) /\
  (HasGetter speedChecked, HasSetter speedChecked) = (true, true).
Proof.
  destruct (capability_flags_match_shape Car GetAccessor Value_Set Value_Set)
    as [H1 [H2 _]].
  split; [| split; [| split; [| split]]].
  - exact (H1 (DataMember Z speed) speedField eq_refl).
  - exact (H1 (GetFunctor Z GetSpeed) speedGetter eq_refl).
  - exact (H1 (SetMethodVoid Z SetSpeed) speedSetter eq_refl).
  - exact (proj2 (H2 (GetFunctor Z GetSpeed) (SetMethodVoid Z SetSpeed) speedPair eq_refl)).
  - exact (proj2 (H2 (SetMethodBool Z SetSpeedChecked) (GetFunctor Z GetSpeed)
                     speedChecked eq_refl)).
Defined.

(** C6, run: [Set] through the lone getter and [Get] through the lone setter,
    on a [Car] and an integer container. *)
Lemma absent_capability_returns_false_witness :
  (Make1 (GetFunctor Z GetSpeed) = Some speedGetter /\
   Make1 (SetMethodVoid Z SetSpeed) = Some speedSetter) /\
  (fst (result (Set_ castCar castInteger speedGetter aCar (IntegerValue 42))) = false /\
   invoked CallGetAccessor (Set_ castCar castInteger speedGetter aCar (IntegerValue 42))
   = false) /\
  fst (result (Get castCar castInteger speedSetter aCar (IntegerValue 42))) = false.
Proof.
  destruct (@absent_capability_returns_false _ _ _ _ _ _ castCar castInteger
              GetAccessor Value_Set Value_Set) as [HS HG].
  split; [split; reflexivity |]. split.
  - exact (HS GetSpeed speedGetter aCar (IntegerValue 42) eq_refl).
  - exact (HG SetSpeed speedSetter aCar (IntegerValue 42) eq_refl).
Defined.

(** C7, run: the checked set method refuses 250 after counting the attempt;
    [Set] returns [false] and the count stays incremented. *)
Lemma bool_setter_result_is_returned_witness :
  ((Make2 (SetMethodBool Z SetSpeedChecked) (GetFunctor Z GetSpeed) = Some speedChecked \/
    Make2 (GetFunctor Z GetSpeed) (SetMethodBool Z SetSpeedChecked) = Some speedChecked) /\
   dynamic_cast castCar aCar = Some {| m_speed := 10; m_trips := 0 |} /\
   dynamic_cast castInteger (IntegerValue 250) = Some 250%Z /\
   GetAccessor 250 = Some 250%Z) /\
  Set_ castCar castInteger speedChecked aCar (IntegerValue 250)
  = ((false, CarObject {| m_speed := 10; m_trips := 1 |}),
     [CallGetAccessor; CallSetter]).
Proof.
  split; [repeat split; left; reflexivity |].
  exact (@bool_setter_result_is_returned _ _ _ _ _ _ castCar castInteger
           GetAccessor Value_Set SetSpeedChecked GetSpeed speedChecked
           aCar (IntegerValue 250) {| m_speed := 10; m_trips := 0 |} 250%Z 250%Z
           (or_introl eq_refl) eq_refl eq_refl eq_refl).
Defined.

(** C8, run: the [void] set method installs 42 and [Set] returns [true]. *)
Lemma void_setter_always_succeeds_witness :
  (Make1 (SetMethodVoid Z SetSpeed) = Some speedSetter /\
   dynamic_cast castCar aCar = Some {| m_speed := 10; m_trips := 0 |} /\
   dynamic_cast castInteger (IntegerValue 42) = Some 42%Z /\
   GetAccessor 42 = Some 42%Z) /\
  Set_ castCar castInteger speedSetter aCar (IntegerValue 42)
  = ((true, CarObject {| m_speed := 42; m_trips := 0 |}),
     [CallGetAccessor; CallSetter]).
Proof.
  split; [repeat split |].
  exact (@void_setter_always_succeeds _ _ _ _ _ _ castCar castInteger
           GetAccessor Value_Set Value_Set SetSpeed speedSetter
           aCar (IntegerValue 42) {| m_speed := 10; m_trips := 0 |} 42%Z 42%Z
           (or_introl eq_refl) eq_refl eq_refl eq_refl).
Defined.

(** C9, run: the get functor first, the [bool] set method second, and the
    converse. *)
Lemma argument_order_is_irrelevant_witness :
  getter_setter_pair (GetFunctor Z GetSpeed) (SetMethodBool Z SetSpeedChecked) = true /\
  exists acc acc',
    Make2 (GetFunctor Z GetSpeed) (SetMethodBool Z SetSpeedChecked) = Some acc /\
    Make2 (SetMethodBool Z SetSpeedChecked) (GetFunctor Z GetSpeed) = Some acc' /\
    acc = acc' /\
    (forall object val,
        Set_ castCar castInteger acc object val = Set_ castCar castInteger acc' object val) /\
    (forall object val,
        Get castCar castInteger acc object val = Get castCar castInteger acc' object val) /\
    HasGetter acc = HasGetter acc' /\
    HasSetter acc = HasSetter acc'.
Proof.
  split; [reflexivity |].
  exact (@argument_order_is_irrelevant _ _ _ _ _ _ castCar castInteger
           GetAccessor Value_Set
           (GetFunctor Z GetSpeed) (SetMethodBool Z SetSpeedChecked) eq_refl).
Defined.

(** C10, run: [Get] through the lone setter leaves the container holding 42. *)
Lemma set_only_get_leaves_value_container_witness :
  (Make1 (SetMethodVoid Z SetSpeed) = Some speedSetter /\
   dynamic_cast castCar aCar = Some {| m_speed := 10; m_trips := 0 |} /\
   dynamic_cast castInteger (IntegerValue 42) = Some 42%Z) /\
  (Get castCar castInteger speedSetter aCar (IntegerValue 42)
   = ((false, IntegerValue 42), []) /\
   invoked CallValueSet (Get castCar castInteger speedSetter aCar (IntegerValue 42))
   = false /\
   Get_post castCar castInteger speedSetter aCar (IntegerValue 42)
   = (aCar, IntegerValue 42)).
Proof.
  split; [repeat split |].
  exact (@set_only_get_leaves_value_container _ _ _ _ _ _ castCar castInteger
           GetAccessor Value_Set Value_Set SetSpeed speedSetter
           aCar (IntegerValue 42) {| m_speed := 10; m_trips := 0 |} 42%Z
           eq_refl eq_refl eq_refl).
Defined.

(** X1, run: the field accessor refuses 300, which the octet extraction
    rejects, although the object and the container narrow. *)
Lemma set_succeeds_exactly_when_witness :
  ProducedVoid GetAccessor Value_Set Value_Set speedField /\
  fst (result (Set_ castCar castInteger speedField aCar (IntegerValue 300)))
  = andb (HasSetter speedField)
         (andb (narrows castCar aCar)
               (extracts castInteger GetAccessor (IntegerValue 300))).
Proof.
  assert (HP : ProducedVoid GetAccessor Value_Set Value_Set speedField)
    by (left; exists (DataMember Z speed); reflexivity).
  split; [exact HP |].
  exact (@set_succeeds_exactly_when _ _ _ _ _ _ castCar castInteger
           GetAccessor Value_Set Value_Set speedField aCar (IntegerValue 300) HP).
Defined.

(** X2, run: the [void] pair applied to a string container. *)
Lemma failed_set_leaves_object_witness :
  (ProducedVoid GetAccessor Value_Set Value_Set speedPair /\
   fst (result (Set_ castCar castInteger speedPair aCar (StringValue "fast"))) = false) /\
  (snd (result (Set_ castCar castInteger speedPair aCar (StringValue "fast"))) = aCar /\
   invoked WriteMember (Set_ castCar castInteger speedPair aCar (StringValue "fast")) = false /\
   invoked CallSetter (Set_ castCar castInteger speedPair aCar (StringValue "fast")) = false).
Proof.
  assert (HP : ProducedVoid GetAccessor Value_Set Value_Set speedPair).
  { right; exists (SetMethodVoid Z SetSpeed), (GetFunctor Z GetSpeed).
    repeat split. }
  split; [split; [exact HP | reflexivity] |].
  exact (@failed_set_leaves_object _ _ _ _ _ _ castCar castInteger
           GetAccessor Value_Set Value_Set speedPair aCar (StringValue "fast")
           HP eq_refl).
Defined.

(** X3, run: [Get] through the lone setter, which has no getter. *)
Lemma get_succeeds_exactly_when_witness :
  Produced GetAccessor Value_Set Value_Set speedSetter /\
  fst (result (Get castCar castInteger speedSetter aCar (IntegerValue 7)))
  = andb (HasGetter speedSetter)
         (andb (narrows castInteger (IntegerValue 7)) (narrows castCar aCar)) /\
  (fst (result (Get castCar castInteger speedSetter aCar (IntegerValue 7))) = false ->
   Get castCar castInteger speedSetter aCar (IntegerValue 7)
   = ((false, IntegerValue 7), [])).
Proof.
  assert (HP : Produced GetAccessor Value_Set Value_Set speedSetter)
    by (left; exists (SetMethodVoid Z SetSpeed); reflexivity).
  split; [exact HP |].
  exact (@get_succeeds_exactly_when _ _ _ _ _ _ castCar castInteger
           GetAccessor Value_Set Value_Set speedSetter aCar (IntegerValue 7) HP).
Defined.

(** X4, run: the logs of [Set] and [Get] through the [bool] pair. *)
Lemma set_reads_nothing_get_writes_nothing_witness :
  Produced GetAccessor Value_Set Value_Set speedChecked /\
  (invoked CallGetter (Set_ castCar castInteger speedChecked aCar (IntegerValue 42)) = false /\
   invoked ReadMember (Set_ castCar castInteger speedChecked aCar (IntegerValue 42)) = false /\
   invoked CallValueSet (Set_ castCar castInteger speedChecked aCar (IntegerValue 42)) = false) /\
  (invoked CallGetAccessor (Get castCar castInteger speedChecked aCar (IntegerValue 42)) = false /\
   invoked CallSetter (Get castCar castInteger speedChecked aCar (IntegerValue 42)) = false /\
   invoked WriteMember (Get castCar castInteger speedChecked aCar (IntegerValue 42)) = false).
Proof.
  assert (HP : Produced GetAccessor Value_Set Value_Set speedChecked).
  { right; exists (SetMethodBool Z SetSpeedChecked), (GetFunctor Z GetSpeed).
    reflexivity. }
  split; [exact HP |].
  exact (@set_reads_nothing_get_writes_nothing _ _ _ _ _ _ castCar castInteger
           GetAccessor Value_Set Value_Set speedChecked aCar (IntegerValue 42) HP).
Defined.

(** X5, run: 42 is assigned to [m_speed] and 10 is read from it. *)
Lemma data_member_is_written_and_read_witness :
  (Make1 (DataMember Z speed) = Some speedField /\
   dynamic_cast castCar aCar = Some {| m_speed := 10; m_trips := 0 |} /\
   dynamic_cast castInteger (IntegerValue 42) = Some 42%Z /\
   GetAccessor 42 = Some 42%Z) /\
  (Set_ castCar castInteger speedField aCar (IntegerValue 42)
   = ((true, CarObject {| m_speed := 42; m_trips := 0 |}),
      [CallGetAccessor; WriteMember]) /\
   exists obj',
     dynamic_cast castCar
       (snd (result (Set_ castCar castInteger speedField aCar (IntegerValue 42))))
     = Some obj' /\
     read speed obj' = 42%Z) /\
  Get castCar castInteger speedField aCar (IntegerValue 42)
  = ((true, IntegerValue 10), [ReadMember; CallValueSet]).
Proof.
  split; [repeat split |].
  destruct (@data_member_is_written_and_read _ _ _ _ _ Z castCar castInteger
              GetAccessor Value_Set Value_Set speed speedField
              aCar (IntegerValue 42) {| m_speed := 10; m_trips := 0 |} 42%Z
              eq_refl eq_refl eq_refl) as [HS HG].
  split; [exact (HS 42%Z eq_refl) | exact HG].
Defined.

(** X6, run: [Get] through the [bool] pair, built getter first. *)
Lemma get_functor_is_read_witness :
  ((Make1 (GetFunctor Z GetSpeed) = Some speedChecked \/
    exists a2, Make2 (GetFunctor Z GetSpeed) a2 = Some speedChecked \/
               Make2 a2 (GetFunctor Z GetSpeed) = Some speedChecked) /\
   dynamic_cast castCar aCar = Some {| m_speed := 10; m_trips := 0 |} /\
   dynamic_cast castInteger (IntegerValue 0) = Some 0%Z) /\
  Get castCar castInteger speedChecked aCar (IntegerValue 0)
  = ((true, IntegerValue 10), [CallGetter; CallValueSet]).
Proof.
  assert (H : Make1 (GetFunctor Z GetSpeed) = Some speedChecked \/
              exists a2, Make2 (GetFunctor Z GetSpeed) a2 = Some speedChecked \/
                         Make2 a2 (GetFunctor Z GetSpeed) = Some speedChecked)
    by (right; exists (SetMethodBool Z SetSpeedChecked); left; reflexivity).
  split; [split; [exact H | split; reflexivity] |].
  exact (@get_functor_is_read _ _ _ _ _ _ castCar castInteger
           GetAccessor Value_Set Value_Set GetSpeed speedChecked
           aCar (IntegerValue 0) {| m_speed := 10; m_trips := 0 |} 0%Z
           H eq_refl eq_refl).
Defined.

(** X7, run: the pairs of the client against its lone setter and getter. *)
Lemma pair_sets_and_gets_as_its_halves_witness :
  (Make2 (SetMethodVoid Z SetSpeed) (GetFunctor Z GetSpeed) = Some speedPair /\
   Make2 (SetMethodBool Z SetSpeedChecked) (GetFunctor Z GetSpeed) = Some speedChecked /\
   Make1 (SetMethodVoid Z SetSpeed) = Some speedSetter /\
   Make1 (GetFunctor Z GetSpeed) = Some speedGetter) /\
  (Set_ castCar castInteger speedPair aCar (IntegerValue 42)
   = Set_ castCar castInteger speedSetter aCar (IntegerValue 42) /\
   Get castCar castInteger speedPair aCar (IntegerValue 42)
   = Get castCar castInteger speedGetter aCar (IntegerValue 42) /\
   Get castCar castInteger speedChecked aCar (IntegerValue 42)
   = Get castCar castInteger speedGetter aCar (IntegerValue 42)).
Proof.
  split; [repeat split |].
  exact (@pair_sets_and_gets_as_its_halves _ _ _ _ _ _ castCar castInteger
           GetAccessor Value_Set Value_Set
           SetSpeed SetSpeedChecked GetSpeed
           speedPair speedChecked speedSetter speedGetter
           eq_refl eq_refl eq_refl eq_refl aCar (IntegerValue 42)).
Defined.

(** X8, run: the speed 77 of one car is copied to [aCar], through the data
    member and through the [void] pair. *)
Lemma get_then_set_copies_attribute_witness :
  (dynamic_cast castCar (CarObject {| m_speed := 77; m_trips := 5 |})
   = Some {| m_speed := 77; m_trips := 5 |} /\
   dynamic_cast castCar aCar = Some {| m_speed := 10; m_trips := 0 |} /\
   dynamic_cast castInteger (IntegerValue 0) = Some 0%Z) /\
  Copies castCar castInteger speedField (read speed)
         (CarObject {| m_speed := 77; m_trips := 5 |}) aCar (IntegerValue 0) /\
  Copies castCar castInteger speedPair GetSpeed
         (CarObject {| m_speed := 77; m_trips := 5 |}) aCar (IntegerValue 0).
Proof.
  split; [repeat split |].
  destruct (@get_then_set_copies_attribute _ _ _ _ _ castCar castInteger
              GetAccessor Value_Set
              (CarObject {| m_speed := 77; m_trips := 5 |}) aCar (IntegerValue 0)
              {| m_speed := 77; m_trips := 5 |} {| m_speed := 10; m_trips := 0 |} 0%Z
              eq_refl eq_refl eq_refl) as [HF HP].
  split.
  - apply (HF speed); [intros w; reflexivity | reflexivity].
  - apply (HP SetSpeed GetSpeed);
      [intros w; reflexivity | intros t; reflexivity | left; reflexivity].
Defined.
